(** * Flux image generator and editor: the helper functions of [app.py]

    The development embeds the helper functions that carry the behaviour
    of the application:

    - [generate_image]: the request/poll client of the generation API,
    - [upscale_image] and [resize_image]: thin wrappers around Pillow's
      [Image.resize],
    - [generate_tab]: the handler of the Generate button, which calls
      [generate_image] and writes the session state.

    Python values are embedded as the inductive [pyval]; a dict is a
    [gmap string pyval].  The network is a script of replies consumed one
    per request, and every run records the requests it issued, so that
    statements can count the requests and read their contents. *)

From stdpp Require Import gmap strings list fin_maps pretty.
From Stdlib Require Import ZArith Lia.

#[local] Set Warnings "-register-all".
#[local] Open Scope Z_scope.

(** ** Python values *)

(** What [json.loads] can produce, plus [None].  A float is kept as its
    IEEE-754 binary64 bit pattern. *)
Inductive pyval :=
  | PyNone
  | PyBool (b : bool)
  | PyInt (z : Z)
  | PyFloat (bits : Z)
  | PyStr (s : string)
  | PyList (l : list pyval)
  | PyDict (d : gmap string pyval).

(** Exceptions that the modelled code paths can raise. *)
Inductive exn :=
  | AttributeError
  | KeyError (key : string)
  | TypeError
  | ValueError
  | JSONDecodeError
  | RequestException
  | UnidentifiedImageError.

Inductive outcome (A : Type) :=
  | Ret (a : A)
  | Raise (e : exn).
Arguments Ret {A} a.
Arguments Raise {A} e.

(** [bool(v)]: the truth value used by [not v] and [if v]. *)
Definition truthy (v : pyval) : bool :=
  match v with
  | PyNone => false
  | PyBool b => b
  | PyInt z => negb (z =? 0)
  | PyFloat bits => negb (Z.land bits (2 ^ 63 - 1) =? 0)
  | PyStr s => negb (String.eqb s "")
  | PyList l => match l with [] => false | _ :: _ => true end
  | PyDict d => negb (bool_decide (d = ∅))
  end.

(** [v == s] for a string literal [s]: only an equal [str] compares equal. *)
Definition eq_str (v : pyval) (s : string) : bool :=
  match v with
  | PyStr t => String.eqb t s
  | _ => false
  end.

(** [v.get(k)]: only a dict has the method; a missing key gives [None]. *)
Definition dict_get (v : pyval) (k : string) : outcome pyval :=
  match v with
  | PyDict d => Ret (default PyNone (d !! k))
  | _ => Raise AttributeError
  end.

(** [v[k]] for a string key [k]. *)
Definition getitem (v : pyval) (k : string) : outcome pyval :=
  match v with
  | PyDict d => match d !! k with Some x => Ret x | None => Raise (KeyError k) end
  | _ => Raise TypeError
  end.

(** ** Images *)

Module Image.
(** A decoded raster: Pillow's [mode] and [size] attributes and the raw
    pixel bytes. *)
Record t := { mode : string; size : Z * Z; data : list Byte.byte }.
End Image.

(** ** HTTP through [requests] *)

Inductive method := GET | POST.

(** One call of [requests.post] or [requests.get], with its arguments as
    passed ([json=] and [headers=] are optional keywords). *)
Record Request := {
  req_method : method;
  req_url : pyval;
  req_json : option pyval;
  req_headers : option pyval
}.

(** A [requests.Response], through the attributes the client reads.
    [text] and [content] are the body as text and as bytes; [json_body]
    is what [.json()] returns, [None] when the body does not parse (the
    call then raises). *)
Record Response := {
  status_code : Z;
  text : string;
  content : list Byte.byte;
  json_body : option pyval
}.

(** [Response.ok]: [raise_for_status] raises exactly for client errors
    (400..499) and server errors (500..599). *)
Definition ok (r : Response) : bool :=
  negb ((400 <=? status_code r) && (status_code r <? 600)).

(** What the network does with one request: answer, or make the call
    raise. *)
Inductive Reply :=
  | Responds (r : Response)
  | Fails (e : exn).

(** ** The client monad

    A computation consumes replies from the script, one per request, and
    returns its outcome, the requests it issued in order, and the replies
    it did not consume. *)
Definition M (A : Type) : Type :=
  list Reply → outcome A * list Request * list Reply.

Definition ret {A} (a : A) : M A := λ s, (Ret a, [], s).

Definition raise {A} (e : exn) : M A := λ s, (Raise e, [], s).

Definition bind {A B} (m : M A) (f : A → M B) : M B := λ s,
  match m s with
  | (Ret a, log, s') =>
      match f a s' with
      | (o, log', s'') => (o, log ++ log', s'')
      end
  | (Raise e, log, s') => (Raise e, log, s')
  end.

Definition lift {A} (o : outcome A) : M A := λ s, (o, [], s).

Notation "'let*' x := m 'in' k" := (bind m (λ x, k))
  (at level 10, x name, m at level 100, k at level 200, only parsing).

(** Issue a request: it is logged, and the next reply of the script
    decides the result.  A network that has nothing more to say fails the
    call. *)
Definition send (r : Request) : M Response := λ s,
  match s with
  | Responds resp :: s' => (Ret resp, [r], s')
  | Fails e :: s' => (Raise e, [r], s')
  | [] => (Raise RequestException, [r], [])
  end.

Definition requests_post (url : pyval) (json : pyval) (headers : pyval) : M Response :=
  send {| req_method := POST; req_url := url;
          req_json := Some json; req_headers := Some headers |}.

Definition requests_get (url : pyval) (headers : option pyval) : M Response :=
  send {| req_method := GET; req_url := url;
          req_json := None; req_headers := headers |}.

(** [response.json()] *)
Definition Response_json (r : Response) : M pyval :=
  match json_body r with
  | Some v => ret v
  | None => raise JSONDecodeError
  end.

(** Accessors of a run. *)
Definition result_of {A} (r : outcome A * list Request * list Reply) : outcome A := r.1.1.
Definition requests_of {A} (r : outcome A * list Request * list Reply) : list Request := r.1.2.

(** ** [generate_image] *)

Definition BASE_URL : string := "https://api.bfl.ai/v1".
Definition GEN_PATH : string := "/flux-pro-1.1-ultra".

Section Generation.

(** [os.getenv("FLUX_API_KEY")]: [None] when the variable is unset. *)
Variable FLUX_API_KEY : option string.

(** [Image.open(io.BytesIO(b))]: Pillow's decoder, [None] when it raises
    [UnidentifiedImageError]. *)
Variable Image_open : list Byte.byte → option Image.t.

Definition headers : pyval :=
  PyDict {[ "x-key" := from_option PyStr PyNone FLUX_API_KEY;
            "accept" := PyStr "application/json" ]}.

Definition payload (prompt : string) : pyval :=
  PyDict {[ "prompt" := PyStr prompt; "aspect_ratio" := PyStr "1:1" ]}.

Definition open_image (b : list Byte.byte) : M Image.t :=
  match Image_open b with
  | Some img => ret img
  | None => raise UnidentifiedImageError
  end.

(** The [for _ in range(n)] loop together with the [return] that follows
    it: [n] is the number of iterations left. *)
Fixpoint poll_loop (n : nat) (polling_url : pyval)
    : M (option Image.t * option string) :=
  match n with
  | O => ret (None, Some "Timeout waiting for image")
  | S n' =>
      let* resp := requests_get polling_url (Some headers) in
      let* r2 := Response_json resp in
      let* status := lift (dict_get r2 "status") in
      if eq_str status "Ready" then
        let* result := lift (getitem r2 "result") in
        let* sample := lift (getitem result "sample") in
        let* img_response := requests_get sample None in
        let* img := open_image (content img_response) in
        ret (Some img, None)
      else poll_loop n' polling_url
  end.

Definition generate_image (prompt : string)
    : M (option Image.t * option string) :=
  let* response := requests_post (PyStr (BASE_URL +:+ GEN_PATH)) (payload prompt) headers in
  if negb (ok response) then
    ret (None, Some ("Error: " +:+ pretty (status_code response)
                      +:+ " " +:+ text response))
  else
    let* data := Response_json response in
    let* polling_url := lift (dict_get data "polling_url") in
    if negb (truthy polling_url) then
      ret (None, Some "No polling URL returned")
    else poll_loop 60 polling_url.

(** The requests the client is expected to issue. *)
Definition creation_request (prompt : string) : Request :=
  {| req_method := POST; req_url := PyStr "https://api.bfl.ai/v1/flux-pro-1.1-ultra";
     req_json := Some (payload prompt); req_headers := Some headers |}.

Definition poll_request (polling_url : pyval) : Request :=
  {| req_method := GET; req_url := polling_url;
     req_json := None; req_headers := Some headers |}.

Definition fetch_request (sample : pyval) : Request :=
  {| req_method := GET; req_url := sample;
     req_json := None; req_headers := None |}.

End Generation.

(** A response whose body parses to [v].  The paths that use such a
    response read neither its text nor its raw bytes, which are left
    empty. *)
Definition json_response (code : Z) (v : pyval) : Response :=
  {| status_code := code; text := ""; content := []; json_body := Some v |}.

(** A poll response after which the loop goes on: its body is a JSON
    object whose [status] is absent or is not the string [Ready]. *)
Definition is_pending (r : Response) : bool :=
  match json_body r with
  | Some (PyDict d) => negb (eq_str (default PyNone (d !! "status")) "Ready")
  | _ => false
  end.

(** The image URL carried by a poll body, when [result] is an object with
    a [sample] entry. *)
Definition sample_of (d : gmap string pyval) : option pyval :=
  match d !! "result" with
  | Some (PyDict result) => result !! "sample"
  | _ => None
  end.

(** The exception raised by [r2["result"]["sample"]] on a body without
    that entry. *)
Definition missing_sample_error (d : gmap string pyval) : exn :=
  match d !! "result" with
  | None => KeyError "result"
  | Some (PyDict _) => KeyError "sample"
  | Some _ => TypeError
  end.

(** Put [log] in front of the requests of a run. *)
Definition after_requests {A} (log : list Request)
    (r : outcome A * list Request * list Reply) : outcome A * list Request * list Reply :=
  (r.1.1, log ++ r.1.2, r.2).

(** A decoder for examples: any non-empty byte string is a one-row
    greyscale image of those bytes. *)
Definition raw_decoder (b : list Byte.byte) : option Image.t :=
  match b with
  | [] => None
  | _ :: _ => Some {| Image.mode := "L"; Image.size := (Z.of_nat (length b), 1); Image.data := b |}
  end.

(** Replies of the provider used in the scenarios. *)
Definition created_response (polling_url : pyval) : Response :=
  json_response 200 (PyDict {[ "polling_url" := polling_url ]}).

Definition pending_response : Response :=
  json_response 200 (PyDict {[ "status" := PyStr "Pending" ]}).

Definition ready_response (sample : string) : Response :=
  json_response 200
    (PyDict {[ "status" := PyStr "Ready";
               "result" := PyDict {[ "sample" := PyStr sample ]} ]}).

Definition image_response (b : list Byte.byte) : Response :=
  {| status_code := 200; text := ""; content := b; json_body := None |}.

(** ** Pillow image objects

    Python images are objects: a variable holds a reference, and a method
    may or may not change the object behind it.  The store maps the
    address of every live image object to its current contents. *)
Abbreviation store := (gmap positive Image.t).

Definition P (A : Type) : Type := store → outcome A * store.

Definition pbind {A B} (m : P A) (f : A → P B) : P B := λ h,
  match m h with
  | (Ret a, h') => f a h'
  | (Raise e, h') => (Raise e, h')
  end.

Notation "'let!' x := m 'in' k" := (pbind m (λ x, k))
  (at level 10, x name, m at level 100, k at level 200, only parsing).

(** Read the object behind a reference.  An address outside the store
    stands for no image, so reading an attribute of it fails. *)
Definition deref (l : positive) : P Image.t := λ h,
  match h !! l with
  | Some im => (Ret im, h)
  | None => (Raise AttributeError, h)
  end.

(** Create a new object. *)
Definition new_image (im : Image.t) : P positive := λ h,
  let l := fresh (dom h) in (Ret l, <[l := im]> h).

Section Editing.

(** The resampling core [self.im.resize(size, resample, box)] of Pillow:
    it computes the pixels of the resized raster, or raises. *)
Variable core_resize : Image.t → Z * Z → outcome Image.t.

(** [Image.resize(size)]: a copy when the size does not change,
    otherwise a new image made from the resampled raster (the mode
    conversions Pillow wraps around the resampling of images with an
    alpha band are part of [core_resize]).  The receiver is only read. *)
Definition Image_resize (self : positive) (size : Z * Z) : P positive :=
  let! im := deref self in
  if bool_decide (Image.size im = size) then new_image im
  else
    let! resized := (λ h, (core_resize im size, h)) in
    new_image resized.

Definition resize_image (img : positive) (width height : Z) : P positive :=
  Image_resize img (width, height).

Definition upscale_image (img : positive) (scale : Z) : P positive :=
  let! im := deref img in
  let '(w, h) := Image.size im in
  Image_resize img (w * scale, h * scale).

End Editing.

(** A resampling core for examples: it keeps the mode and paints every
    pixel of the requested raster with zero bytes; like Pillow's, it
    rejects a raster without pixels. *)
Definition blank_resize (im : Image.t) (size : Z * Z) : outcome Image.t :=
  if (1 <=? size.1) && (1 <=? size.2) then
    Ret {| Image.mode := Image.mode im; Image.size := size;
           Image.data := replicate (Z.to_nat (size.1 * size.2)) Byte.x00 |}
  else Raise ValueError.

(** A poll response whose status field equals [Ready]. *)
Definition has_status_ready (r : Response) : bool :=
  match json_body r with
  | Some (PyDict d) => eq_str (default PyNone (d !! "status")) "Ready"
  | _ => false
  end.

(** A gateway's error page: not a JSON body. *)
Definition bad_gateway : Response :=
  {| status_code := 502; text := "Bad Gateway"; content := []; json_body := None |}.

(** ** Replies that end a run early *)

(** The exception a poll ends with when its reply cannot be read as a
    JSON object: the call itself fails, [.json()] fails on the body, or
    the body has no [get] method.  [None] for a readable reply. *)
Definition poll_error (r : Reply) : option exn :=
  match r with
  | Fails e => Some e
  | Responds resp =>
      match json_body resp with
      | None => Some JSONDecodeError
      | Some (PyDict _) => None
      | Some _ => Some AttributeError
      end
  end.

(** Two replies that differ at most in what the poll loop does not read:
    the status code and the text of a response. *)
Definition same_body (a b : Reply) : Prop :=
  match a, b with
  | Responds r, Responds r' => json_body r = json_body r' ∧ content r = content r'
  | Fails e, Fails e' => e = e'
  | _, _ => False
  end.

(** ** The generation tab

    [st.session_state] is a dict of Python objects, [st.warning] and
    [st.error] put a notice on the page. *)
Inductive ssval :=
  | SNone
  | SImage (im : Image.t)
  | SStr (s : string).

Inductive notice :=
  | Warning (body : pyval)
  | Error (body : pyval).

Section GenerateTab.

Variable FLUX_API_KEY : option string.
Variable Image_open : list Byte.byte → option Image.t.

(** The handler of the Generate button, for the text [prompt] of the text
    area and the value [clicked] of [st.button]: it returns the session
    state it leaves and the notices it shows. *)
Definition generate_tab (prompt : string) (clicked : bool)
    (session_state : gmap string ssval) : M (gmap string ssval * list notice) :=
  if clicked then
    if negb (truthy (PyStr prompt)) then
      ret (session_state, [Warning (PyStr "Please enter a prompt.")])
    else
      let* r := generate_image FLUX_API_KEY Image_open prompt in
      let img := r.1 in
      let err := from_option PyStr PyNone r.2 in
      if truthy err then ret (session_state, [Error err])
      else
        ret (<["generated_prompt" := SStr prompt]>
               (<["generated_image" := from_option SImage SNone img]> session_state),
             [])
  else ret (session_state, []).

End GenerateTab.

(** * Properties of [generate_image] *)

Section GenerationFacts.

Variable FLUX_API_KEY : option string.
Variable Image_open : list Byte.byte → option Image.t.

#[local] Abbreviation headers := (headers FLUX_API_KEY).
#[local] Abbreviation poll_request := (poll_request FLUX_API_KEY).
#[local] Abbreviation creation_request := (creation_request FLUX_API_KEY).
#[local] Abbreviation poll_loop := (poll_loop FLUX_API_KEY Image_open).
#[local] Abbreviation generate_image := (generate_image FLUX_API_KEY Image_open).

(** What one call does, reply by reply. *)
Lemma bind_send_responds {A} (r : Request) (f : Response → M A) resp s :
  bind (send r) f (Responds resp :: s) = after_requests [r] (f resp s).
Proof.
  unfold bind, send, after_requests. destruct (f resp s) as [[o log] s']. reflexivity.
Qed.

Lemma bind_send_fails {A} (r : Request) (f : Response → M A) e s :
  bind (send r) f (Fails e :: s) = (Raise e, [r], s).
Proof. reflexivity. Qed.

Lemma bind_send_silent {A} (r : Request) (f : Response → M A) :
  bind (send r) f [] = (Raise RequestException, [r], []).
Proof. reflexivity. Qed.

Lemma bind_get_responds {A} url h (f : Response → M A) resp s :
  bind (requests_get url h) f (Responds resp :: s)
  = after_requests
      [{| req_method := GET; req_url := url; req_json := None; req_headers := h |}]
      (f resp s).
Proof. apply bind_send_responds. Qed.

Lemma bind_get_fails {A} url h (f : Response → M A) e s :
  bind (requests_get url h) f (Fails e :: s)
  = (Raise e,
     [{| req_method := GET; req_url := url; req_json := None; req_headers := h |}], s).
Proof. reflexivity. Qed.

Lemma bind_get_silent {A} url h (f : Response → M A) :
  bind (requests_get url h) f []
  = (Raise RequestException,
     [{| req_method := GET; req_url := url; req_json := None; req_headers := h |}], []).
Proof. reflexivity. Qed.

Lemma bind_ret {A B} (a : A) (f : A → M B) s : bind (ret a) f s = f a s.
Proof.
  unfold bind, ret. destruct (f a s) as [[o log] s']. reflexivity.
Qed.

Lemma bind_lift_ret {A B} (a : A) (f : A → M B) s : bind (lift (Ret a)) f s = f a s.
Proof. apply bind_ret. Qed.

Lemma bind_lift_raise {A B} e (f : A → M B) s :
  bind (lift (Raise e)) f s = (Raise e, [], s).
Proof. reflexivity. Qed.

Lemma after_requests_app {A} l1 l2 (r : outcome A * list Request * list Reply) :
  after_requests l1 (after_requests l2 r) = after_requests (l1 ++ l2) r.
Proof. unfold after_requests. simpl. by rewrite app_assoc. Qed.

Lemma poll_loop_S n url :
  poll_loop (S n) url
  = (let* resp := requests_get url (Some headers) in
     let* r2 := Response_json resp in
     let* status := lift (dict_get r2 "status") in
     if eq_str status "Ready" then
       let* result := lift (getitem r2 "result") in
       let* sample := lift (getitem result "sample") in
       let* img_response := requests_get sample None in
       let* img := open_image Image_open (content img_response) in
       ret (Some img, None)
     else poll_loop n url).
Proof. reflexivity. Qed.

(** One iteration on a pending response: one poll request, then the
    rest of the loop. *)
Lemma poll_loop_pending n url resp s :
  is_pending resp = true →
  poll_loop (S n) url (Responds resp :: s)
  = after_requests [poll_request url] (poll_loop n url s).
Proof.
  intros Hp. unfold is_pending in Hp.
  rewrite poll_loop_S.
  rewrite bind_get_responds. f_equal.
  unfold Response_json.
  destruct (json_body resp) as [[| | | | | |d]|]; try discriminate.
  rewrite bind_ret. simpl dict_get. rewrite bind_lift_ret.
  destruct (eq_str _ _); [discriminate|reflexivity].
Qed.

(** A run of pending responses costs one poll request each. *)
Lemma poll_loop_pendings pendings n url s :
  forallb is_pending pendings = true →
  poll_loop (length pendings + n) url (map Responds pendings ++ s)
  = after_requests (replicate (length pendings) (poll_request url)) (poll_loop n url s).
Proof.
  induction pendings as [|p ps IH]; intros Hall;
    cbn [length map app Nat.add replicate].
  - unfold after_requests. by destruct (poll_loop n url s) as [[? ?] ?].
  - simpl in Hall. apply andb_prop in Hall as [Hp Hps].
    rewrite poll_loop_pending by done. rewrite IH by done.
    by rewrite after_requests_app.
Qed.

(** One iteration on a Ready response that carries [result.sample]. *)
Lemma poll_loop_ready n url ready d sample img_response img s :
  json_body ready = Some (PyDict d) →
  d !! "status" = Some (PyStr "Ready") →
  sample_of d = Some sample →
  Image_open (content img_response) = Some img →
  poll_loop (S n) url (Responds ready :: Responds img_response :: s)
  = (Ret (Some img, None), [poll_request url; fetch_request sample], s).
Proof.
  intros Hj Hs Hsample Himg. unfold sample_of in Hsample.
  rewrite poll_loop_S.
  rewrite bind_get_responds.
  unfold Response_json. rewrite Hj, bind_ret. simpl dict_get. rewrite Hs. simpl default.
  rewrite bind_lift_ret. change (eq_str (PyStr "Ready") "Ready") with true. cbv iota.
  unfold getitem at 1.
  destruct (d !! "result") as [[| | | | | |res]|]; try discriminate.
  rewrite bind_lift_ret. unfold getitem. rewrite Hsample, bind_lift_ret.
  rewrite bind_get_responds. unfold open_image. rewrite Himg, bind_ret.
  reflexivity.
Qed.

(** One iteration on a Ready response without [result.sample]: the
    subscript raises before anything is fetched. *)
Lemma poll_loop_ready_no_sample n url ready d s :
  json_body ready = Some (PyDict d) →
  d !! "status" = Some (PyStr "Ready") →
  sample_of d = None →
  poll_loop (S n) url (Responds ready :: s)
  = (Raise (missing_sample_error d), [poll_request url], s).
Proof.
  intros Hj Hs Hsample. unfold sample_of in Hsample. unfold missing_sample_error.
  rewrite poll_loop_S.
  rewrite bind_get_responds.
  unfold Response_json. rewrite Hj, bind_ret. simpl dict_get. rewrite Hs. simpl default.
  rewrite bind_lift_ret. change (eq_str (PyStr "Ready") "Ready") with true. cbv iota.
  unfold getitem at 1.
  destruct (d !! "result") as [[| | | | | |res]|]; try reflexivity.
  rewrite bind_lift_ret. unfold getitem. rewrite Hsample. reflexivity.
Qed.

Lemma requests_after_requests {A} log (r : outcome A * list Request * list Reply) :
  requests_of (after_requests log r) = log ++ requests_of r.
Proof. reflexivity. Qed.

Lemma result_after_requests {A} log (r : outcome A * list Request * list Reply) :
  result_of (after_requests log r) = result_of r.
Proof. reflexivity. Qed.

(** The body of the Ready branch issues the image fetch or nothing, and
    can only return a decoded image. *)
Lemma ready_branch_shape (r2 : pyval) s :
  let run :=
    (let* result := lift (getitem r2 "result") in
     let* sample := lift (getitem result "sample") in
     let* img_response := requests_get sample None in
     let* img := open_image Image_open (content img_response) in
     ret (Some img, @None string)) s in
  (requests_of run = [] ∨ ∃ sample, requests_of run = [fetch_request sample])
  ∧ (∀ o e, result_of run = Ret (o, e) → ∃ img, o = Some img ∧ e = None).
Proof.
  intros run. subst run.
  destruct (getitem r2 "result") as [result|e1].
  2:{ rewrite bind_lift_raise. split; [by left|]. intros ? ? [=]. }
  rewrite bind_lift_ret.
  destruct (getitem result "sample") as [sample|e2].
  2:{ rewrite bind_lift_raise. split; [by left|]. intros ? ? [=]. }
  rewrite bind_lift_ret.
  destruct s as [|[resp|e3] s].
  - rewrite bind_get_silent. split; [right; by exists sample|]. intros ? ? [=].
  - rewrite bind_get_responds, requests_after_requests, result_after_requests.
    unfold open_image. destruct (Image_open (content resp)) as [img|].
    + rewrite bind_ret. split; [right; by exists sample|].
      intros o e [= <- <-]. by exists img.
    + split; [right; by exists sample|]. intros ? ? [=].
  - rewrite bind_get_fails. split; [right; by exists sample|]. intros ? ? [=].
Qed.

(** Shape of every run of the loop: some polls of the handle, never more
    than the iterations allowed, then at most one image fetch; and the
    loop returns either a decoded image or the timeout message. *)
Lemma poll_loop_shape n url s :
  ∃ k tail,
    (k ≤ n)%nat ∧ (1 ≤ n → 1 ≤ k)%nat
    ∧ requests_of (poll_loop n url s) = replicate k (poll_request url) ++ tail
    ∧ (tail = [] ∨ ∃ sample, tail = [fetch_request sample])
    ∧ (∀ o e, result_of (poll_loop n url s) = Ret (o, e) →
         (o = None ∧ e = Some "Timeout waiting for image")
         ∨ (∃ img, o = Some img ∧ e = None)).
Proof.
  revert s. induction n as [|n IH]; intros s.
  - exists 0%nat, []. repeat split; [lia|lia|by left|].
    intros o e [= <- <-]. by left.
  - rewrite poll_loop_S.
    destruct s as [|[resp|e] s].
    + rewrite bind_get_silent. exists 1%nat, [].
      repeat split; [lia|lia|by left|]. intros ? ? [=].
    + rewrite bind_get_responds, requests_after_requests, result_after_requests.
      unfold Response_json.
      destruct (json_body resp) as [r2|].
      2:{ exists 1%nat, []. repeat split; [lia|lia|by left|]. intros ? ? [=]. }
      rewrite bind_ret.
      destruct (dict_get r2 "status") as [status|e].
      2:{ rewrite bind_lift_raise. exists 1%nat, [].
          repeat split; [lia|lia|by left|]. intros ? ? [=]. }
      rewrite bind_lift_ret.
      destruct (eq_str status "Ready").
      * destruct (ready_branch_shape r2 s) as [Hreq Hres].
        destruct Hreq as [Hreq|[sample Hreq]].
        -- exists 1%nat, []. rewrite Hreq.
           repeat split; [lia|lia|by left|].
           intros o e He. right. by apply Hres.
        -- exists 1%nat, [fetch_request sample]. rewrite Hreq.
           repeat split; [lia|lia|right; by exists sample|].
           intros o e He. right. by apply Hres.
      * destruct (IH s) as (k & tail & Hk & _ & Hreq & Htail & Hres).
        exists (S k), tail. rewrite Hreq.
        repeat split; [lia|lia|done|done].
    + rewrite bind_get_fails. exists 1%nat, [].
      repeat split; [lia|lia|by left|]. intros ? ? [=].
Qed.

Lemma generate_image_unfold prompt resp s :
  generate_image prompt (Responds resp :: s)
  = after_requests [creation_request prompt]
      ((if negb (ok resp) then
          ret (None, Some ("Error: " +:+ pretty (status_code resp)
                            +:+ " " +:+ text resp))
        else
          let* data := Response_json resp in
          let* polling_url := lift (dict_get data "polling_url") in
          if negb (truthy polling_url) then
            ret (None, Some "No polling URL returned")
          else poll_loop 60 polling_url) s).
Proof.
  unfold generate_image, requests_post.
  by rewrite bind_send_responds.
Qed.

Lemma ok_false_iff resp :
  ok resp = false ↔ 400 ≤ status_code resp < 600.
Proof. unfold ok. rewrite negb_false_iff, andb_true_iff. lia. Qed.

(** Shape of every run of [generate_image]: the creation request, then
    polls of one URL, then at most one image fetch. *)
Lemma generate_image_shape prompt s :
  ∃ url k tail,
    (k ≤ 60)%nat
    ∧ requests_of (generate_image prompt s)
      = creation_request prompt :: replicate k (poll_request url) ++ tail
    ∧ (tail = [] ∨ ∃ sample, tail = [fetch_request sample]).
Proof.
  destruct s as [|[resp|e] s].
  - exists PyNone, 0%nat, []. repeat split; [lia|by left].
  - rewrite generate_image_unfold, requests_after_requests.
    destruct (negb (ok resp)).
    { exists PyNone, 0%nat, []. repeat split; [lia|by left]. }
    unfold Response_json. destruct (json_body resp) as [data|].
    2:{ exists PyNone, 0%nat, []. repeat split; [lia|by left]. }
    rewrite bind_ret. destruct (dict_get data "polling_url") as [url|e].
    2:{ rewrite bind_lift_raise. exists PyNone, 0%nat, []. repeat split; [lia|by left]. }
    rewrite bind_lift_ret. destruct (negb (truthy url)).
    { exists PyNone, 0%nat, []. repeat split; [lia|by left]. }
    destruct (poll_loop_shape 60 url s) as (k & tail & Hk & _ & Hreq & Htail & _).
    exists url, k, tail. rewrite Hreq. done.
  - exists PyNone, 0%nat, []. repeat split; [lia|by left].
Qed.

(** Exactly one POST: the creation request comes first and everything
    after it is a GET. *)
Lemma generate_image_one_post prompt s :
  ∃ later,
    requests_of (generate_image prompt s) = creation_request prompt :: later
    ∧ Forall (λ r, req_method r = GET) later.
Proof.
  destruct (generate_image_shape prompt s) as (url & k & tail & _ & Hreq & Htail).
  exists (replicate k (poll_request url) ++ tail). split; [exact Hreq|].
  apply Forall_app. split.
  - apply Forall_replicate. reflexivity.
  - destruct Htail as [->|[sample ->]]; repeat constructor.
Qed.

(** A creation response that passes both checks hands the run over to
    the poll loop on the URL it carries. *)
Lemma generate_image_accepted prompt created data url rest :
  ok created = true →
  json_body created = Some (PyDict data) →
  data !! "polling_url" = Some url →
  truthy url = true →
  generate_image prompt (Responds created :: rest)
  = after_requests [creation_request prompt] (poll_loop 60 url rest).
Proof.
  intros Hok Hj Hurl Ht. rewrite generate_image_unfold, Hok. cbn [negb].
  unfold Response_json. rewrite Hj, bind_ret. cbn [dict_get]. rewrite Hurl.
  cbn [default from_option id]. rewrite bind_lift_ret. unfold id. rewrite Ht. reflexivity.
Qed.

(** ** The claims *)

(** C1. Every run issues at most 60 authenticated GET requests to the
    polling URL, all of them in a row after the creation request and
    followed by at most one fetch of the image.  When the responses to
    the polls are pending ones followed, within the 60 attempts, by a
    response whose status is "Ready" and that carries result.sample,
    the run fetches that URL, returns the decoded image, and has
    issued exactly one poll per pending response plus one, nothing
    after the fetch.  In particular the sequence Pending, Pending,
    Ready succeeds after exactly three polls. *)
Theorem poll_returns_on_first_ready :
  (∀ prompt s, ∃ url k tail,
      (k ≤ 60)%nat
      ∧ requests_of (generate_image prompt s)
        = creation_request prompt :: replicate k (poll_request url) ++ tail
      ∧ (tail = [] ∨ ∃ sample, tail = [fetch_request sample]))
  ∧ (∀ prompt created data url pendings ready d sample img_response img rest,
      ok created = true →
      json_body created = Some (PyDict data) →
      data !! "polling_url" = Some url →
      truthy url = true →
      (length pendings < 60)%nat →
      forallb is_pending pendings = true →
      json_body ready = Some (PyDict d) →
      d !! "status" = Some (PyStr "Ready") →
      sample_of d = Some sample →
      Image_open (content img_response) = Some img →
      generate_image prompt
        (Responds created :: map Responds pendings
           ++ Responds ready :: Responds img_response :: rest)
      = (Ret (Some img, None),
         creation_request prompt
           :: replicate (S (length pendings)) (poll_request url)
           ++ [fetch_request sample],
         rest))
  ∧ (∀ bytes img rest,
      Image_open bytes = Some img →
      generate_image "A serene sunset over a mountain lake"
        (Responds (created_response (PyStr "https://x/p/1"))
           :: Responds pending_response
           :: Responds pending_response
           :: Responds (ready_response "https://x/img/1.png")
           :: Responds (image_response bytes) :: rest)
      = (Ret (Some img, None),
         [creation_request "A serene sunset over a mountain lake";
          poll_request (PyStr "https://x/p/1");
          poll_request (PyStr "https://x/p/1");
          poll_request (PyStr "https://x/p/1");
          fetch_request (PyStr "https://x/img/1.png")],
         rest)).
Proof.
  assert (Hgen : ∀ prompt created data url pendings ready d sample img_response img rest,
      ok created = true →
      json_body created = Some (PyDict data) →
      data !! "polling_url" = Some url →
      truthy url = true →
      (length pendings < 60)%nat →
      forallb is_pending pendings = true →
      json_body ready = Some (PyDict d) →
      d !! "status" = Some (PyStr "Ready") →
      sample_of d = Some sample →
      Image_open (content img_response) = Some img →
      generate_image prompt
        (Responds created :: map Responds pendings
           ++ Responds ready :: Responds img_response :: rest)
      = (Ret (Some img, None),
         creation_request prompt
           :: replicate (S (length pendings)) (poll_request url)
           ++ [fetch_request sample],
         rest)).
  { intros prompt created data url pendings ready d sample img_response img rest
      Hok Hj Hurl Ht Hlen Hpend Hrj Hst Hsample Himg.
    rewrite (generate_image_accepted _ _ data url) by done.
    replace 60%nat with (length pendings + S (59 - length pendings))%nat by lia.
    rewrite poll_loop_pendings by done.
    rewrite (poll_loop_ready _ _ _ d sample _ img) by done.
    unfold after_requests. cbn [fst snd]. f_equal. f_equal.
    cbn [app]. f_equal.
    change (S (length pendings)) with (1 + length pendings)%nat.
    rewrite Nat.add_comm, replicate_add. by rewrite <- app_assoc. }
  split; [apply generate_image_shape|]. split; [exact Hgen|].
  intros bytes img rest Himg.
  apply (Hgen _ _ {[ "polling_url" := PyStr "https://x/p/1" ]} _
           [pending_response; pending_response] _
           {[ "status" := PyStr "Ready";
              "result" := PyDict {[ "sample" := PyStr "https://x/img/1.png" ]} ]});
    try reflexivity; [cbn; lia | exact Himg].
Qed.

(** C2, as amended.  When the creation response is accepted and each of
    the 60 poll responses is a pending one (a JSON object whose status is
    absent or is not "Ready"), the run
    returns the error "Timeout waiting for image" after exactly 60
    polls and issues nothing more: the replies that follow are left
    unread. *)
Theorem poll_times_out prompt created data url pendings rest :
  ok created = true →
  json_body created = Some (PyDict data) →
  data !! "polling_url" = Some url →
  truthy url = true →
  length pendings = 60%nat →
  forallb is_pending pendings = true →
  generate_image prompt (Responds created :: map Responds pendings ++ rest)
  = (Ret (None, Some "Timeout waiting for image"),
     creation_request prompt :: replicate 60 (poll_request url),
     rest).
Proof.
  intros Hok Hj Hurl Ht Hlen Hpend.
  rewrite (generate_image_accepted _ _ data url) by done.
  replace 60%nat with (length pendings + 0)%nat at 1 by lia.
  rewrite poll_loop_pendings by done. rewrite Hlen.
  unfold after_requests. cbn [poll_loop ret fst snd].
  by rewrite app_nil_r.
Qed.

(** C3, as amended.  A creation response with a client-error or
    server-error status (400..599) makes the run return the error
    "Error: <status code> <body text>" with no further request; a
    response with any status below 400, whether 1xx, 2xx or 3xx, passes
    this check: the run never returns an "Error: ..." message for
    it. *)
Theorem creation_error_status prompt resp rest :
  (400 ≤ status_code resp < 600 →
     generate_image prompt (Responds resp :: rest)
     = (Ret (None, Some ("Error: " +:+ pretty (status_code resp)
                          +:+ " " +:+ text resp)),
        [creation_request prompt], rest))
  ∧ (status_code resp < 400 →
     ∀ msg, result_of (generate_image prompt (Responds resp :: rest))
            ≠ Ret (None, Some ("Error: " +:+ msg))).
Proof.
  split.
  - intros Hcode. apply ok_false_iff in Hcode.
    rewrite generate_image_unfold, Hcode. reflexivity.
  - intros Hcode msg.
    assert (Hok : ok resp = true).
    { destruct (ok resp) eqn:E; [done|]. apply ok_false_iff in E. lia. }
    rewrite generate_image_unfold, Hok, result_after_requests. cbn [negb].
    unfold Response_json. destruct (json_body resp) as [data|]; [|done].
    rewrite bind_ret. destruct (dict_get data "polling_url") as [url|e]; [|done].
    rewrite bind_lift_ret. destruct (negb (truthy url)); [done|].
    destruct (poll_loop_shape 60 url rest) as (_ & _ & _ & _ & _ & _ & Hres).
    intros Heq. destruct (Hres _ _ Heq) as [[_ [=]]|(img & [=] & _)].
Qed.


(** C5, as amended.  For every prompt, empty or not, and whatever the
    network answers, the run issues exactly one creation request: its
    first request, every later one being a GET.  When the accepted
    response carries a polling_url whose value is truthy (not null,
    false, zero or empty), the run continues as the poll loop on exactly
    that value: between one and 60 polls, each a GET of that value, then
    at most one image fetch. *)
Theorem creation_hands_over_polling_url prompt :
  (∀ s, ∃ later,
      requests_of (generate_image prompt s) = creation_request prompt :: later
      ∧ Forall (λ r, req_method r = GET) later)
  ∧ (∀ created data url rest,
      ok created = true →
      json_body created = Some (PyDict data) →
      data !! "polling_url" = Some url →
      truthy url = true →
      generate_image prompt (Responds created :: rest)
      = after_requests [creation_request prompt] (poll_loop 60 url rest)
      ∧ ∃ k tail,
          (1 ≤ k ≤ 60)%nat
          ∧ requests_of (generate_image prompt (Responds created :: rest))
            = creation_request prompt :: replicate k (poll_request url) ++ tail
          ∧ (tail = [] ∨ ∃ sample, tail = [fetch_request sample])).
Proof.
  split; [apply generate_image_one_post|].
  intros created data url rest Hok Hj Hurl Ht.
  rewrite (generate_image_accepted _ _ data url) by done.
  split; [done|].
  destruct (poll_loop_shape 60 url rest) as (k & tail & Hk & Hk1 & Hreq & Htail & _).
  exists k, tail. rewrite requests_after_requests, Hreq.
  repeat split; [lia|lia|done].
Qed.

(** C6. For every prompt and whatever the network answers, the first
    request of a run is a POST to BASE_URL followed by GEN_PATH, with
    JSON body exactly prompt and aspect_ratio "1:1" and with headers
    x-key (the credential) and accept (application/json); every later
    request of the run is a GET, so the creation request is the only
    one. *)
Theorem creation_request_shape prompt s :
  ∃ later,
    requests_of (generate_image prompt s)
    = {| req_method := POST;
         req_url := PyStr (BASE_URL +:+ GEN_PATH);
         req_json := Some (PyDict (<["prompt" := PyStr prompt]>
                                     (<["aspect_ratio" := PyStr "1:1"]> ∅)));
         req_headers := Some headers |} :: later
    ∧ Forall (λ r, req_method r = GET) later
    ∧ ∃ h, headers = PyDict h
           ∧ h !! "x-key" = Some (from_option PyStr PyNone FLUX_API_KEY)
           ∧ h !! "accept" = Some (PyStr "application/json").
Proof.
  destruct (generate_image_one_post prompt s) as (later & Hreq & Hget).
  exists later. split; [exact Hreq|]. split; [exact Hget|].
  - eexists. split; [reflexivity|]. split.
    + apply lookup_insert_eq.
    + rewrite lookup_insert_ne by done. apply lookup_insert_eq.
Qed.

(** C7. A creation response with status 401 and body "unauthorized"
    makes the run return the error "Error: 401 unauthorized"; the
    creation request is the only request issued, so the poll loop is
    never entered. *)
Theorem creation_unauthorized prompt bytes body rest :
  generate_image prompt
    (Responds {| status_code := 401; text := "unauthorized";
                 content := bytes; json_body := body |} :: rest)
  = (Ret (None, Some "Error: 401 unauthorized"),
     [creation_request prompt], rest).
Proof. rewrite generate_image_unfold. reflexivity. Qed.

(** C8. When the first poll response with status "Ready" lacks the
    result entry, or its result lacks the sample entry, the run does
    not return at all: the subscript raises (KeyError, or TypeError when
    result is not an object) right after that poll, before any fetch.
    In particular the run yields neither the timeout nor the
    missing-URL error. *)
Theorem ready_without_sample_raises
    prompt created data url pendings ready d rest :
  ok created = true →
  json_body created = Some (PyDict data) →
  data !! "polling_url" = Some url →
  truthy url = true →
  (length pendings < 60)%nat →
  forallb is_pending pendings = true →
  json_body ready = Some (PyDict d) →
  d !! "status" = Some (PyStr "Ready") →
  sample_of d = None →
  generate_image prompt
    (Responds created :: map Responds pendings ++ Responds ready :: rest)
  = (Raise (missing_sample_error d),
     creation_request prompt :: replicate (S (length pendings)) (poll_request url),
     rest)
  ∧ ∀ r, result_of (generate_image prompt
           (Responds created :: map Responds pendings ++ Responds ready :: rest))
         ≠ Ret r.
Proof.
  intros Hok Hj Hurl Ht Hlen Hpend Hrj Hst Hsample.
  assert (Hrun : generate_image prompt
    (Responds created :: map Responds pendings ++ Responds ready :: rest)
    = (Raise (missing_sample_error d),
       creation_request prompt :: replicate (S (length pendings)) (poll_request url),
       rest)).
  { rewrite (generate_image_accepted _ _ data url) by done.
    replace 60%nat with (length pendings + S (59 - length pendings))%nat by lia.
    rewrite poll_loop_pendings by done.
    rewrite (poll_loop_ready_no_sample _ _ _ d) by done.
    unfold after_requests. cbn [fst snd app]. f_equal. f_equal. f_equal.
    change (S (length pendings)) with (1 + length pendings)%nat.
    by rewrite Nat.add_comm, replicate_add. }
  split; [exact Hrun|]. intros r. rewrite Hrun. discriminate.
Qed.

End GenerationFacts.

(** ** Scenarios *)

Lemma poll_returns_on_first_ready_witness :
  generate_image (Some "secret") raw_decoder "a lighthouse at dawn"
    (Responds (created_response (PyStr "https://x/p/7"))
       :: map Responds [pending_response; pending_response; pending_response]
       ++ Responds (ready_response "https://x/img/7.png")
       :: Responds (image_response [Byte.x89; Byte.x50]) :: [Fails RequestException])
  = (Ret (Some {| Image.mode := "L"; Image.size := (2, 1);
                  Image.data := [Byte.x89; Byte.x50] |}, None),
     creation_request (Some "secret") "a lighthouse at dawn"
       :: replicate 4 (poll_request (Some "secret") (PyStr "https://x/p/7"))
       ++ [fetch_request (PyStr "https://x/img/7.png")],
     [Fails RequestException]).
Proof.
  apply (proj1 (proj2 (poll_returns_on_first_ready (Some "secret") raw_decoder))
           "a lighthouse at dawn" (created_response (PyStr "https://x/p/7"))
           {[ "polling_url" := PyStr "https://x/p/7" ]} (PyStr "https://x/p/7")
           [pending_response; pending_response; pending_response]
           (ready_response "https://x/img/7.png")
           {[ "status" := PyStr "Ready";
              "result" := PyDict {[ "sample" := PyStr "https://x/img/7.png" ]} ]}
           (PyStr "https://x/img/7.png") (image_response [Byte.x89; Byte.x50]));
    try reflexivity.
  simpl. lia.
Defined.

Lemma poll_times_out_witness :
  generate_image (Some "secret") raw_decoder "a lighthouse at dawn"
    (Responds (created_response (PyStr "https://x/p/7"))
       :: map Responds (replicate 60 pending_response)
       ++ [Responds (ready_response "https://x/img/7.png")])
  = (Ret (None, Some "Timeout waiting for image"),
     creation_request (Some "secret") "a lighthouse at dawn"
       :: replicate 60 (poll_request (Some "secret") (PyStr "https://x/p/7")),
     [Responds (ready_response "https://x/img/7.png")]).
Proof.
  apply (poll_times_out (Some "secret") raw_decoder "a lighthouse at dawn"
           (created_response (PyStr "https://x/p/7"))
           {[ "polling_url" := PyStr "https://x/p/7" ]});
    reflexivity.
Defined.

(** C2, as stated, fails: none of these 60 poll responses has status
    "Ready", but the last one is not JSON, and the run ends with
    JSONDecodeError instead of the timeout message. *)
Lemma unreadable_poll_is_no_timeout :
  length (replicate 59 pending_response ++ [bad_gateway]) = 60%nat
  ∧ forallb (λ r, negb (has_status_ready r))
      (replicate 59 pending_response ++ [bad_gateway]) = true
  ∧ generate_image (Some "secret") raw_decoder "a lighthouse at dawn"
      (Responds (created_response (PyStr "https://x/p/7"))
         :: map Responds (replicate 59 pending_response ++ [bad_gateway]))
    = (Raise JSONDecodeError,
       creation_request (Some "secret") "a lighthouse at dawn"
         :: replicate 60 (poll_request (Some "secret") (PyStr "https://x/p/7")),
       []).
Proof. repeat split; vm_compute; reflexivity. Qed.

Lemma creation_error_status_witness :
  generate_image (Some "secret") raw_decoder "a lighthouse at dawn"
    [Responds {| status_code := 503; text := "busy"; content := []; json_body := None |}]
  = (Ret (None, Some "Error: 503 busy"),
     [creation_request (Some "secret") "a lighthouse at dawn"], []).
Proof.
  apply (proj1 (creation_error_status (Some "secret") raw_decoder "a lighthouse at dawn"
           {| status_code := 503; text := "busy"; content := []; json_body := None |} [])).
  simpl. lia.
Defined.

(** C3, as stated, fails: status 300 is outside 2xx, yet the response is
    accepted and the run goes on to poll and to return the image. *)
Lemma status_300_is_accepted :
  status_code (json_response 300 (PyDict {[ "polling_url" := PyStr "https://x/p/7" ]})) = 300
  ∧ generate_image (Some "secret") raw_decoder "a lighthouse at dawn"
      [Responds (json_response 300 (PyDict {[ "polling_url" := PyStr "https://x/p/7" ]}));
       Responds (ready_response "https://x/img/7.png");
       Responds (image_response [Byte.x89; Byte.x50])]
    = (Ret (Some {| Image.mode := "L"; Image.size := (2, 1);
                    Image.data := [Byte.x89; Byte.x50] |}, None),
       [creation_request (Some "secret") "a lighthouse at dawn";
        poll_request (Some "secret") (PyStr "https://x/p/7");
        fetch_request (PyStr "https://x/img/7.png")],
       []).
Proof. split; vm_compute; reflexivity. Qed.



Lemma creation_hands_over_polling_url_witness :
  generate_image (Some "secret") raw_decoder "a lighthouse at dawn"
    [Responds (created_response (PyStr "https://x/p/7"))]
  = after_requests [creation_request (Some "secret") "a lighthouse at dawn"]
      (poll_loop (Some "secret") raw_decoder 60 (PyStr "https://x/p/7") [])
  ∧ ∃ k tail,
      (1 ≤ k ≤ 60)%nat
      ∧ requests_of (generate_image (Some "secret") raw_decoder "a lighthouse at dawn"
                       [Responds (created_response (PyStr "https://x/p/7"))])
        = creation_request (Some "secret") "a lighthouse at dawn"
            :: replicate k (poll_request (Some "secret") (PyStr "https://x/p/7")) ++ tail
      ∧ (tail = [] ∨ ∃ sample, tail = [fetch_request sample]).
Proof.
  apply (proj2 (creation_hands_over_polling_url (Some "secret") raw_decoder
                  "a lighthouse at dawn")
           (created_response (PyStr "https://x/p/7"))
           {[ "polling_url" := PyStr "https://x/p/7" ]});
    reflexivity.
Defined.

(** C5, as stated, fails: the response carries a polling_url, the empty
    string, and the run reports a missing URL instead of polling it. *)
Lemma empty_polling_url_is_rejected :
  (∃ data, json_body (created_response (PyStr "")) = Some (PyDict data)
           ∧ data !! "polling_url" = Some (PyStr ""))
  ∧ generate_image (Some "secret") raw_decoder "a lighthouse at dawn"
      [Responds (created_response (PyStr ""));
       Responds (ready_response "https://x/img/7.png");
       Responds (image_response [Byte.x89; Byte.x50])]
    = (Ret (None, Some "No polling URL returned"),
       [creation_request (Some "secret") "a lighthouse at dawn"],
       [Responds (ready_response "https://x/img/7.png");
        Responds (image_response [Byte.x89; Byte.x50])]).
Proof.
  split.
  - exists {[ "polling_url" := PyStr "" ]}. split; reflexivity.
  - vm_compute. reflexivity.
Qed.

Lemma ready_without_sample_raises_witness :
  generate_image (Some "secret") raw_decoder "a lighthouse at dawn"
    (Responds (created_response (PyStr "https://x/p/7"))
       :: map Responds [pending_response]
       ++ Responds (json_response 200 (PyDict {[ "status" := PyStr "Ready" ]}))
       :: [Responds (image_response [Byte.x89; Byte.x50])])
  = (Raise (KeyError "result"),
     creation_request (Some "secret") "a lighthouse at dawn"
       :: replicate 2 (poll_request (Some "secret") (PyStr "https://x/p/7")),
     [Responds (image_response [Byte.x89; Byte.x50])]).
Proof.
  apply (proj1 (ready_without_sample_raises (Some "secret") raw_decoder
           "a lighthouse at dawn" (created_response (PyStr "https://x/p/7"))
           {[ "polling_url" := PyStr "https://x/p/7" ]} (PyStr "https://x/p/7")
           [pending_response]
           (json_response 200 (PyDict {[ "status" := PyStr "Ready" ]}))
           {[ "status" := PyStr "Ready" ]}
           [Responds (image_response [Byte.x89; Byte.x50])]
           eq_refl eq_refl eq_refl eq_refl ltac:(simpl; lia)
           eq_refl eq_refl eq_refl eq_refl)).
Defined.

(** * Properties of the editing helpers *)

Lemma new_image_spec (im : Image.t) (st : store) :
  ∃ out, new_image im st = (Ret out, <[out := im]> st) ∧ st !! out = None.
Proof.
  exists (fresh (dom st)). split; [reflexivity|].
  apply not_elem_of_dom, is_fresh.
Qed.

Lemma store_insert_keeps (st : store) out im l x :
  st !! out = None → st !! l = Some x → <[out := im]> st !! l = Some x.
Proof.
  intros Hout Hl. rewrite lookup_insert_ne; [done|]. intros ->. congruence.
Qed.


(** [Image.resize] on a target the resampling core accepts: as above,
    asking of the core only what this one call needs. *)
Lemma Image_resize_accepted core_resize (st : store) self im (target : Z * Z) :
  st !! self = Some im →
  (Image.size im ≠ target →
     ∃ resized, core_resize im target = Ret resized ∧ Image.size resized = target) →
  ∃ out im' st',
    Image_resize core_resize self target st = (Ret out, st')
    ∧ st' !! out = Some im'
    ∧ Image.size im' = target
    ∧ st !! out = None
    ∧ ∀ l x, st !! l = Some x → st' !! l = Some x.
Proof.
  intros Hself Hcore. unfold Image_resize, pbind, deref. rewrite Hself.
  case_bool_decide as Hsame.
  - destruct (new_image_spec im st) as (out & -> & Hfresh).
    exists out, im, (<[out := im]> st).
    repeat split; [apply lookup_insert_eq|done|done|].
    intros l x Hl. by apply store_insert_keeps.
  - destruct (Hcore Hsame) as (resized & -> & Hsize).
    destruct (new_image_spec resized st) as (out & -> & Hfresh).
    exists out, resized, (<[out := resized]> st).
    repeat split; [apply lookup_insert_eq|done|done|].
    intros l x Hl. by apply store_insert_keeps.
Qed.

(** C10, as amended.  For an image of size (w, h) and a scale for which
    Pillow's resampling core accepts the target (w * scale, h * scale)
    and delivers a raster of that size, upscale_image returns a new
    image object whose size is exactly (w * scale, h * scale); the input
    object, like every other object of the store, is left as it was.
    The core is asked about this one target only, and not at all when the
    target is the size the image already has. *)
Theorem upscale_image_size core_resize (st : store) img im (w h scale : Z) :
  st !! img = Some im →
  Image.size im = (w, h) →
  ((w * scale, h * scale) ≠ (w, h) →
     ∃ resized, core_resize im (w * scale, h * scale) = Ret resized
                ∧ Image.size resized = (w * scale, h * scale)) →
  ∃ out im' st',
    upscale_image core_resize img scale st = (Ret out, st')
    ∧ st' !! out = Some im'
    ∧ Image.size im' = (w * scale, h * scale)
    ∧ out ≠ img
    ∧ st' !! img = Some im
    ∧ ∀ l x, st !! l = Some x → st' !! l = Some x.
Proof.
  intros Himg Hsize Hcore.
  destruct (Image_resize_accepted core_resize st img im (w * scale, h * scale))
    as (out & im' & st' & Hrun & Hout & Hsz & Hfresh & Hkeep); [done| |].
  { intros Hne. apply Hcore. intros Heq. apply Hne. by rewrite Hsize, Heq. }
  exists out, im', st'. unfold upscale_image, pbind, deref.
  rewrite Himg, Hsize, Hrun.
  repeat split; [done|done| |by apply Hkeep|done].
  intros ->. congruence.
Qed.

Lemma upscale_image_size_witness :
  ∃ out im' st',
    upscale_image blank_resize 1 3
      {[ 1%positive := {| Image.mode := "RGB"; Image.size := (2, 5); Image.data := [] |} ]}
    = (Ret out, st')
    ∧ st' !! out = Some im'
    ∧ Image.size im' = (2 * 3, 5 * 3)
    ∧ out ≠ 1%positive
    ∧ st' !! 1%positive
      = Some {| Image.mode := "RGB"; Image.size := (2, 5); Image.data := [] |}
    ∧ ∀ l x,
        ({[ 1%positive := {| Image.mode := "RGB"; Image.size := (2, 5); Image.data := [] |} ]}
           : store) !! l = Some x
        → st' !! l = Some x.
Proof.
  apply (upscale_image_size blank_resize _ 1%positive
           {| Image.mode := "RGB"; Image.size := (2, 5); Image.data := [] |} 2 5 3).
  - reflexivity.
  - reflexivity.
  - intros _. eexists. split; reflexivity.
Defined.

(** C10, as stated, fails: an image without pixels, here 0 wide and 5
    high, has a size, and 2 is a positive scale, yet the resampling core
    rejects the empty target (0, 10) and upscale_image raises instead of
    returning an image. *)
Lemma upscale_image_empty_raster_raises :
  0 < 2
  ∧ upscale_image blank_resize 1 2
      {[ 1%positive := {| Image.mode := "RGB"; Image.size := (0, 5); Image.data := [] |} ]}
    = (Raise ValueError,
       {[ 1%positive := {| Image.mode := "RGB"; Image.size := (0, 5); Image.data := [] |} ]}).
Proof. split; [lia|]. vm_compute. reflexivity. Qed.

(** * Further properties of [generate_image] *)

Section GenerationEdges.

Variable FLUX_API_KEY : option string.
Variable Image_open : list Byte.byte → option Image.t.

#[local] Abbreviation headers := (headers FLUX_API_KEY).
#[local] Abbreviation poll_request := (poll_request FLUX_API_KEY).
#[local] Abbreviation creation_request := (creation_request FLUX_API_KEY).
#[local] Abbreviation poll_loop := (poll_loop FLUX_API_KEY Image_open).
#[local] Abbreviation generate_image := (generate_image FLUX_API_KEY Image_open).

(** What [generate_image] can return: an image without a message, or one
    of three messages without an image. *)
Lemma generate_image_returns prompt s o e :
  result_of (generate_image prompt s) = Ret (o, e) →
  (∃ img, o = Some img ∧ e = None)
  ∨ (o = None
     ∧ (e = Some "Timeout waiting for image"
        ∨ e = Some "No polling URL returned"
        ∨ ∃ (code : Z) body, e = Some ("Error: " +:+ pretty code +:+ " " +:+ body))).
Proof.
  destruct s as [|[resp|x] s]; [intros [=]| |intros [=]].
  rewrite generate_image_unfold, result_after_requests.
  destruct (negb (ok resp)).
  { intros [= <- <-]. right. split; [done|]. right. right. eauto. }
  unfold Response_json. destruct (json_body resp) as [data|]; [|intros [=]].
  rewrite bind_ret. destruct (dict_get data "polling_url") as [url|x]; [|intros [=]].
  rewrite bind_lift_ret. destruct (negb (truthy url)).
  { intros [= <- <-]. right. split; [done|]. right. by left. }
  intros Hres.
  destruct (poll_loop_shape FLUX_API_KEY Image_open 60 url s)
    as (_ & _ & _ & _ & _ & _ & Hcases).
  destruct (Hcases _ _ Hres) as [[-> ->]|(img & -> & ->)].
  - right. split; [done|]. by left.
  - left. by exists img.
Qed.

(** X1. Whenever [generate_image] returns, the caller's test [if err]
    tells the two outcomes apart: the message is truthy exactly when
    there is no image, and then it is a non-empty string; otherwise the
    message is [None] and the image is there. *)
Theorem generate_image_err_decides prompt s o e :
  result_of (generate_image prompt s) = Ret (o, e) →
  if truthy (from_option PyStr PyNone e)
  then o = None ∧ ∃ msg, e = Some msg ∧ msg ≠ ""
  else e = None ∧ ∃ img, o = Some img.
Proof.
  intros Hres.
  destruct (generate_image_returns _ _ _ _ Hres)
    as [(img & -> & ->)|[-> [->|[->|(code & body & ->)]]]]; cbn.
  - split; [done|]. by exists img.
  - split; [done|]. eexists. split; [done|]. discriminate.
  - split; [done|]. eexists. split; [done|]. discriminate.
  - split; [done|]. eexists. split; [done|]. discriminate.
Qed.

Lemma poll_loop_poll_error n url r e s :
  poll_error r = Some e →
  poll_loop (S n) url (r :: s) = (Raise e, [poll_request url], s).
Proof.
  intros Hr. rewrite poll_loop_S. destruct r as [resp|x]; cbn in Hr.
  - rewrite bind_get_responds. unfold Response_json.
    destruct (json_body resp) as [v|]; [|by injection Hr as <-].
    rewrite bind_ret.
    destruct v; try discriminate; by injection Hr as <-.
  - injection Hr as <-. by rewrite bind_get_fails.
Qed.

Lemma replicate_snoc_cons {A} (x : A) n l :
  replicate n x ++ x :: l = replicate (S n) x ++ l.
Proof.
  change (S n) with (1 + n)%nat. rewrite Nat.add_comm, replicate_add.
  by rewrite <- app_assoc.
Qed.

(** X2. A poll that cannot be read is not retried.  When, after fewer
    than 60 pending responses, a poll fails in the network, or its body
    is not JSON, or the JSON is not an object, the run raises that
    exception right away: no further poll, no fetch, and the replies that
    follow stay unread. *)
Theorem poll_error_ends_run prompt created data url pendings r e rest :
  ok created = true →
  json_body created = Some (PyDict data) →
  data !! "polling_url" = Some url →
  truthy url = true →
  (length pendings < 60)%nat →
  forallb is_pending pendings = true →
  poll_error r = Some e →
  generate_image prompt (Responds created :: map Responds pendings ++ r :: rest)
  = (Raise e,
     creation_request prompt :: replicate (S (length pendings)) (poll_request url),
     rest).
Proof.
  intros Hok Hj Hurl Ht Hlen Hpend Hr.
  rewrite (generate_image_accepted _ _ _ _ data url) by done.
  replace 60%nat with (length pendings + S (59 - length pendings))%nat by lia.
  rewrite poll_loop_pendings by done.
  rewrite (poll_loop_poll_error _ _ _ e) by done.
  unfold after_requests. cbn [fst snd app]. f_equal. f_equal. f_equal.
  by rewrite replicate_snoc_cons, app_nil_r.
Qed.

(** X3. The creation step has no error handling of its own beyond the
    status test.  A network failure of the POST, an accepted response
    whose body is not JSON, and an accepted response whose JSON is not an
    object each raise (the network's exception, JSONDecodeError,
    AttributeError) after the single creation request, instead of
    returning an error message. *)
Theorem creation_unreadable_raises prompt rest :
  (∀ e, generate_image prompt (Fails e :: rest)
        = (Raise e, [creation_request prompt], rest))
  ∧ (∀ created,
       ok created = true → json_body created = None →
       generate_image prompt (Responds created :: rest)
       = (Raise JSONDecodeError, [creation_request prompt], rest))
  ∧ (∀ created v,
       ok created = true → json_body created = Some v →
       (∀ d, v ≠ PyDict d) →
       generate_image prompt (Responds created :: rest)
       = (Raise AttributeError, [creation_request prompt], rest)).
Proof.
  split; [reflexivity|]. split.
  - intros created Hok Hj. rewrite generate_image_unfold, Hok. cbn [negb].
    unfold Response_json. by rewrite Hj.
  - intros created v Hok Hj Hv. rewrite generate_image_unfold, Hok. cbn [negb].
    unfold Response_json. rewrite Hj, bind_ret.
    destruct v; try reflexivity. by destruct (Hv d).
Qed.

(** X4. A polling_url that is present but falsy (null, false, zero, an
    empty string, list or object) is treated like a missing one: the run
    returns "No polling URL returned" and issues no poll. *)
Theorem falsy_polling_url_rejected prompt created data url rest :
  ok created = true →
  json_body created = Some (PyDict data) →
  data !! "polling_url" = Some url →
  truthy url = false →
  generate_image prompt (Responds created :: rest)
  = (Ret (None, Some "No polling URL returned"),
     [creation_request prompt], rest).
Proof.
  intros Hok Hj Hurl Ht. rewrite generate_image_unfold, Hok. cbn [negb].
  unfold Response_json. rewrite Hj, bind_ret. cbn [dict_get]. rewrite Hurl.
  cbn [default from_option id]. rewrite bind_lift_ret. unfold id. by rewrite Ht.
Qed.

(** X5. Once a Ready response with result.sample is seen, polling is
    over whatever becomes of the image.  If the fetch fails in the
    network, or the fetched bytes are not an image, the run raises (the
    network's exception, UnidentifiedImageError) right after the fetch:
    the handle is not polled again and the remaining replies stay
    unread. *)
Theorem fetch_failure_ends_run
    prompt created data url pendings ready d sample r e rest :
  ok created = true →
  json_body created = Some (PyDict data) →
  data !! "polling_url" = Some url →
  truthy url = true →
  (length pendings < 60)%nat →
  forallb is_pending pendings = true →
  json_body ready = Some (PyDict d) →
  d !! "status" = Some (PyStr "Ready") →
  sample_of d = Some sample →
  (r = Fails e
   ∨ ∃ resp, r = Responds resp ∧ Image_open (content resp) = None
             ∧ e = UnidentifiedImageError) →
  generate_image prompt
    (Responds created :: map Responds pendings ++ Responds ready :: r :: rest)
  = (Raise e,
     creation_request prompt :: replicate (S (length pendings)) (poll_request url)
       ++ [fetch_request sample],
     rest).
Proof.
  intros Hok Hj Hurl Ht Hlen Hpend Hrj Hst Hsample Hr.
  rewrite (generate_image_accepted _ _ _ _ data url) by done.
  replace 60%nat with (length pendings + S (59 - length pendings))%nat by lia.
  rewrite poll_loop_pendings by done.
  assert (Hstep : poll_loop (S (59 - length pendings)) url (Responds ready :: r :: rest)
                  = (Raise e, [poll_request url; fetch_request sample], rest)).
  { unfold sample_of in Hsample. rewrite poll_loop_S, bind_get_responds.
    unfold Response_json. rewrite Hrj, bind_ret. simpl dict_get. rewrite Hst.
    simpl default. rewrite bind_lift_ret.
    change (eq_str (PyStr "Ready") "Ready") with true. cbv iota.
    unfold getitem at 1.
    destruct (d !! "result") as [[| | | | | |res]|]; try discriminate.
    rewrite bind_lift_ret. unfold getitem. rewrite Hsample, bind_lift_ret.
    destruct Hr as [->|(resp & -> & Himg & ->)].
    - by rewrite bind_get_fails.
    - rewrite bind_get_responds. unfold open_image. by rewrite Himg. }
  rewrite Hstep. unfold after_requests. cbn [fst snd app]. f_equal. f_equal. f_equal.
  apply (replicate_snoc_cons (poll_request url)).
Qed.

Lemma agree_after_requests {A} log (r r' : outcome A * list Request * list Reply) :
  result_of r = result_of r' ∧ requests_of r = requests_of r' →
  result_of (after_requests log r) = result_of (after_requests log r')
  ∧ requests_of (after_requests log r) = requests_of (after_requests log r').
Proof.
  intros [Hres Hreq]. rewrite !result_after_requests, !requests_after_requests.
  by rewrite Hres, Hreq.
Qed.

Lemma poll_loop_same_body n url s s' :
  Forall2 same_body s s' →
  result_of (poll_loop n url s) = result_of (poll_loop n url s')
  ∧ requests_of (poll_loop n url s) = requests_of (poll_loop n url s').
Proof.
  revert s s'. induction n as [|n IH]; intros s s' Hss; [done|].
  rewrite !poll_loop_S.
  destruct Hss as [|a a' s s' Ha Hss]; [done|].
  destruct a as [r|x], a' as [r'|x']; cbn in Ha; try done.
  2:{ subst x'. by rewrite !bind_get_fails. }
  destruct Ha as [Hjson _].
  rewrite !bind_get_responds. apply agree_after_requests.
  unfold Response_json. rewrite Hjson. destruct (json_body r') as [r2|]; [|done].
  rewrite !bind_ret. destruct (dict_get r2 "status") as [status|x]; [|done].
  rewrite !bind_lift_ret. destruct (eq_str status "Ready"); [|by apply IH].
  destruct (getitem r2 "result") as [result|x]; [|done].
  rewrite !bind_lift_ret. destruct (getitem result "sample") as [sample|x]; [|done].
  rewrite !bind_lift_ret.
  destruct Hss as [|b b' s s' Hb _]; [done|].
  destruct b as [q|x], b' as [q'|x']; cbn in Hb; try done.
  2:{ subst x'. by rewrite !bind_get_fails. }
  destruct Hb as [_ Hcontent].
  rewrite !bind_get_responds. apply agree_after_requests.
  unfold open_image. rewrite Hcontent.
  destruct (Image_open (content q')); [|done].
  by rewrite !bind_ret.
Qed.

(** X6. After the creation step the client never looks at an HTTP
    status nor at the text of a body.  Two sequences of replies to the
    polls and to the fetch that agree on their parsed JSON and on their
    raw bytes (and fail in the same places) lead to the same result and
    to the same requests, whatever status codes they carry: a Ready body
    under status 500 is acted on, and whatever the sample URL serves is
    handed to the image decoder. *)
Theorem polls_ignore_status prompt created s s' :
  Forall2 same_body s s' →
  result_of (generate_image prompt (Responds created :: s))
  = result_of (generate_image prompt (Responds created :: s'))
  ∧ requests_of (generate_image prompt (Responds created :: s))
    = requests_of (generate_image prompt (Responds created :: s')).
Proof.
  intros Hss. rewrite !generate_image_unfold. apply agree_after_requests.
  destruct (negb (ok created)); [done|].
  unfold Response_json. destruct (json_body created) as [data|]; [|done].
  rewrite !bind_ret. destruct (dict_get data "polling_url") as [url|x]; [|done].
  rewrite !bind_lift_ret. destruct (negb (truthy url)); [done|].
  by apply poll_loop_same_body.
Qed.

End GenerationEdges.

Lemma generate_image_err_decides_witness :
  if truthy (from_option PyStr PyNone (Some "Error: 503 busy"))
  then @None Image.t = None ∧ ∃ msg, Some "Error: 503 busy" = Some msg ∧ msg ≠ ""
  else Some "Error: 503 busy" = None ∧ ∃ img : Image.t, None = Some img.
Proof.
  apply (generate_image_err_decides (Some "secret") raw_decoder "a lighthouse at dawn"
           [Responds {| status_code := 503; text := "busy"; content := [];
                        json_body := None |}]).
  reflexivity.
Defined.

Lemma poll_error_ends_run_witness :
  generate_image (Some "secret") raw_decoder "a lighthouse at dawn"
    (Responds (created_response (PyStr "https://x/p/7"))
       :: map Responds [pending_response; pending_response]
       ++ Responds {| status_code := 502; text := "Bad Gateway"; content := [];
                      json_body := None |}
       :: [Responds (ready_response "https://x/img/7.png")])
  = (Raise JSONDecodeError,
     creation_request (Some "secret") "a lighthouse at dawn"
       :: replicate 3 (poll_request (Some "secret") (PyStr "https://x/p/7")),
     [Responds (ready_response "https://x/img/7.png")]).
Proof.
  apply (poll_error_ends_run (Some "secret") raw_decoder "a lighthouse at dawn"
           (created_response (PyStr "https://x/p/7"))
           {[ "polling_url" := PyStr "https://x/p/7" ]} (PyStr "https://x/p/7")
           [pending_response; pending_response]);
    try reflexivity.
  simpl. lia.
Defined.

Lemma creation_unreadable_raises_witness :
  generate_image (Some "secret") raw_decoder "a lighthouse at dawn"
    [Responds (json_response 200 (PyList [PyStr "https://x/p/7"]));
     Responds pending_response]
  = (Raise AttributeError,
     [creation_request (Some "secret") "a lighthouse at dawn"],
     [Responds pending_response]).
Proof.
  apply (proj2 (proj2 (creation_unreadable_raises (Some "secret") raw_decoder
                         "a lighthouse at dawn" [Responds pending_response]))
           (json_response 200 (PyList [PyStr "https://x/p/7"]))
           (PyList [PyStr "https://x/p/7"]));
    [reflexivity|reflexivity|discriminate].
Defined.

Lemma falsy_polling_url_rejected_witness :
  generate_image (Some "secret") raw_decoder "a lighthouse at dawn"
    [Responds (created_response PyNone); Responds pending_response]
  = (Ret (None, Some "No polling URL returned"),
     [creation_request (Some "secret") "a lighthouse at dawn"],
     [Responds pending_response]).
Proof.
  apply (falsy_polling_url_rejected (Some "secret") raw_decoder "a lighthouse at dawn"
           (created_response PyNone) {[ "polling_url" := PyNone ]} PyNone);
    reflexivity.
Defined.

Lemma fetch_failure_ends_run_witness :
  generate_image (Some "secret") raw_decoder "a lighthouse at dawn"
    (Responds (created_response (PyStr "https://x/p/7"))
       :: map Responds [pending_response]
       ++ Responds (ready_response "https://x/img/7.png")
       :: Responds (image_response [])
       :: [Responds (ready_response "https://x/img/7.png")])
  = (Raise UnidentifiedImageError,
     creation_request (Some "secret") "a lighthouse at dawn"
       :: replicate 2 (poll_request (Some "secret") (PyStr "https://x/p/7"))
       ++ [fetch_request (PyStr "https://x/img/7.png")],
     [Responds (ready_response "https://x/img/7.png")]).
Proof.
  apply (fetch_failure_ends_run (Some "secret") raw_decoder "a lighthouse at dawn"
           (created_response (PyStr "https://x/p/7"))
           {[ "polling_url" := PyStr "https://x/p/7" ]} (PyStr "https://x/p/7")
           [pending_response] (ready_response "https://x/img/7.png")
           {[ "status" := PyStr "Ready";
              "result" := PyDict {[ "sample" := PyStr "https://x/img/7.png" ]} ]}
           (PyStr "https://x/img/7.png"));
    try reflexivity.
  - simpl. lia.
  - right. exists (image_response []). repeat split; reflexivity.
Defined.

Lemma polls_ignore_status_witness :
  result_of (generate_image (Some "secret") raw_decoder "a lighthouse at dawn"
               (Responds (created_response (PyStr "https://x/p/7"))
                  :: [Responds (ready_response "https://x/img/7.png");
                      Responds (image_response [Byte.x89; Byte.x50])]))
  = result_of (generate_image (Some "secret") raw_decoder "a lighthouse at dawn"
                 (Responds (created_response (PyStr "https://x/p/7"))
                    :: [Responds {| status_code := 500; text := "oops"; content := [];
                                    json_body := json_body (ready_response "https://x/img/7.png") |};
                        Responds {| status_code := 404; text := "gone";
                                    content := [Byte.x89; Byte.x50]; json_body := None |}]))
  ∧ requests_of (generate_image (Some "secret") raw_decoder "a lighthouse at dawn"
                   (Responds (created_response (PyStr "https://x/p/7"))
                      :: [Responds (ready_response "https://x/img/7.png");
                          Responds (image_response [Byte.x89; Byte.x50])]))
    = requests_of (generate_image (Some "secret") raw_decoder "a lighthouse at dawn"
                     (Responds (created_response (PyStr "https://x/p/7"))
                        :: [Responds {| status_code := 500; text := "oops"; content := [];
                                        json_body := json_body (ready_response "https://x/img/7.png") |};
                            Responds {| status_code := 404; text := "gone";
                                        content := [Byte.x89; Byte.x50]; json_body := None |}])).
Proof.
  apply (polls_ignore_status (Some "secret") raw_decoder "a lighthouse at dawn").
  repeat constructor.
Defined.

(** * Properties of the generation tab *)

Section GenerateTabFacts.

Variable FLUX_API_KEY : option string.
Variable Image_open : list Byte.byte → option Image.t.

#[local] Abbreviation creation_request := (creation_request FLUX_API_KEY).
#[local] Abbreviation generate_image := (generate_image FLUX_API_KEY Image_open).
#[local] Abbreviation generate_tab := (generate_tab FLUX_API_KEY Image_open).

Lemma truthy_prompt prompt : truthy (PyStr prompt) = true ↔ prompt ≠ "".
Proof.
  cbn. rewrite negb_true_iff. split.
  - intros H ->. discriminate.
  - intros H. destruct (String.eqb_spec prompt ""); done.
Qed.

(** A returned message is never empty, and never comes with an image. *)
Lemma generate_image_message prompt s o msg :
  result_of (generate_image prompt s) = Ret (o, Some msg) →
  o = None ∧ truthy (PyStr msg) = true.
Proof.
  intros Hres.
  destruct (generate_image_returns _ _ _ _ _ _ Hres)
    as [(img & _ & [=])|[-> [[= ->]|[[= ->]|(code & body & [= ->])]]]]; done.
Qed.

(** The handler on a click with a prompt, by the outcome of
    [generate_image]. *)
Lemma generate_tab_clicked prompt session_state s :
  prompt ≠ "" →
  generate_tab prompt true session_state s
  = match generate_image prompt s with
    | (Ret (img, err), log, s') =>
        (Ret (if truthy (from_option PyStr PyNone err)
              then (session_state, [Error (from_option PyStr PyNone err)])
              else (<["generated_prompt" := SStr prompt]>
                      (<["generated_image" := from_option SImage SNone img]>
                         session_state), [])),
         log, s')
    | (Raise e, log, s') => (Raise e, log, s')
    end.
Proof.
  intros Hp. apply truthy_prompt in Hp.
  unfold generate_tab. rewrite Hp. cbn [negb]. unfold bind.
  destruct (generate_image prompt s) as [[[[img err]|e] log] s']; [|done].
  cbn [fst snd]. destruct (truthy (from_option PyStr PyNone err)); cbn;
    by rewrite app_nil_r.
Qed.

(** X7. The provider is contacted exactly when the button is clicked
    with a non-empty prompt.  Without a click nothing happens; a click on
    an empty prompt only shows the warning; in both cases the session
    state is returned as it was and no reply is consumed.  Otherwise the
    run starts with the creation request for that prompt, and the
    handler adds no request of its own to those of generate_image. *)
Theorem generate_tab_contacts_provider prompt clicked session_state s :
  (clicked = false →
     generate_tab prompt clicked session_state s = (Ret (session_state, []), [], s))
  ∧ (clicked = true → prompt = "" →
     generate_tab prompt clicked session_state s
     = (Ret (session_state, [Warning (PyStr "Please enter a prompt.")]), [], s))
  ∧ (clicked = true → prompt ≠ "" →
     requests_of (generate_tab prompt clicked session_state s)
     = requests_of (generate_image prompt s)
     ∧ ∃ later, requests_of (generate_tab prompt clicked session_state s)
                = creation_request prompt :: later).
Proof.
  split; [by intros ->|]. split; [by intros -> ->|].
  intros -> Hp. rewrite generate_tab_clicked by done.
  assert (Hreq : requests_of
            match generate_image prompt s with
            | (Ret (img, err), log, s') =>
                (Ret (if truthy (from_option PyStr PyNone err)
                      then (session_state, [Error (from_option PyStr PyNone err)])
                      else (<["generated_prompt" := SStr prompt]>
                              (<["generated_image" := from_option SImage SNone img]>
                                 session_state), [])),
                 log, s')
            | (Raise e, log, s') => (Raise e, log, s')
            end = requests_of (generate_image prompt s)).
  { by destruct (generate_image prompt s) as [[[[img err]|e] log] s']. }
  split; [exact Hreq|]. rewrite Hreq.
  destruct (generate_image_one_post FLUX_API_KEY Image_open prompt s)
    as (later & Hlater & _).
  by exists later.
Qed.

(** X8. What a click with a prompt leaves behind.  A generated image is
    stored under generated_image together with its prompt under
    generated_prompt and nothing is shown; an error message is shown
    with st.error and the session state is returned untouched, so an
    image of an earlier run stays in place; an exception of
    generate_image passes through the handler. *)
Theorem generate_tab_outcome prompt session_state s :
  prompt ≠ "" →
  (∀ img,
     result_of (generate_image prompt s) = Ret (Some img, None) →
     result_of (generate_tab prompt true session_state s)
     = Ret (<["generated_prompt" := SStr prompt]>
              (<["generated_image" := SImage img]> session_state), []))
  ∧ (∀ msg,
     result_of (generate_image prompt s) = Ret (None, Some msg) →
     result_of (generate_tab prompt true session_state s)
     = Ret (session_state, [Error (PyStr msg)]))
  ∧ (∀ e,
     result_of (generate_image prompt s) = Raise e →
     result_of (generate_tab prompt true session_state s) = Raise e).
Proof.
  intros Hp. rewrite generate_tab_clicked by done.
  split; [|split].
  - intros img Hres.
    destruct (generate_image prompt s) as [[o log] s']. cbn in Hres. by subst o.
  - intros msg Hres.
    destruct (generate_image_message prompt s None msg Hres) as [_ Hmsg].
    destruct (generate_image prompt s) as [[o log] s']. cbn in Hres. subst o.
    cbn [from_option]. by rewrite Hmsg.
  - intros e Hres.
    destruct (generate_image prompt s) as [[o log] s']. cbn in Hres. by subst o.
Qed.

(** The session state a run returns is the old one, or the old one with
    a decoded image and its prompt written into it. *)
Lemma generate_tab_session prompt clicked session_state s session_state' notices :
  result_of (generate_tab prompt clicked session_state s)
  = Ret (session_state', notices) →
  session_state' = session_state
  ∨ ∃ img, session_state'
           = <["generated_prompt" := SStr prompt]>
               (<["generated_image" := SImage img]> session_state).
Proof.
  destruct clicked; [|intros [= <- _]; by left].
  destruct (decide (prompt = "")) as [->|Hp]; [intros [= <- _]; by left|].
  rewrite generate_tab_clicked by done.
  pose proof (generate_image_returns FLUX_API_KEY Image_open prompt s) as Hret.
  destruct (generate_image prompt s) as [[[[o e]|x] log] s']; [|intros [=]].
  destruct (Hret o e eq_refl) as [(img & -> & ->)|[-> He]].
  - intros [= <- _]. right. by exists img.
  - assert (Ht : truthy (from_option PyStr PyNone e) = true).
    { destruct He as [->|[->|(code & body & ->)]]; done. }
    cbn [result_of fst]. rewrite Ht. intros [= <- _]. by left.
Qed.

(** X9. The handler keeps the session state fit for the page code that
    follows it, which reads generated_prompt whenever generated_image is
    present and draws the stored object.  Every key other than these two
    is left as it was; if generated_image came with generated_prompt
    before the run it does so after it; and if the stored
    generated_image was an image before, it is one after: None is never
    stored. *)
Theorem generate_tab_keeps_session
    prompt clicked (session_state session_state' : gmap string ssval) s notices :
  result_of (generate_tab prompt clicked session_state s)
  = Ret (session_state', notices) →
  (∀ k, k ≠ "generated_image" → k ≠ "generated_prompt" →
        session_state' !! k = session_state !! k)
  ∧ ((is_Some (session_state !! "generated_image")
      → is_Some (session_state !! "generated_prompt"))
     → is_Some (session_state' !! "generated_image")
     → is_Some (session_state' !! "generated_prompt"))
  ∧ ((∀ v, session_state !! "generated_image" = Some v → ∃ im, v = SImage im)
     → ∀ v, session_state' !! "generated_image" = Some v → ∃ im, v = SImage im).
Proof.
  intros Hres.
  destruct (generate_tab_session _ _ _ _ _ _ Hres) as [->|[img ->]]; [done|].
  split; [|split].
  - intros k Hk1 Hk2. by rewrite !lookup_insert_ne.
  - intros _ _. rewrite lookup_insert_eq. by eexists.
  - intros _ v. rewrite lookup_insert_ne by done. rewrite lookup_insert_eq.
    intros [= <-]. by exists img.
Qed.

End GenerateTabFacts.

Lemma generate_tab_contacts_provider_witness :
  requests_of (generate_tab (Some "secret") raw_decoder "a lighthouse at dawn" true ∅
                 [Responds (created_response PyNone)])
  = requests_of (generate_image (Some "secret") raw_decoder "a lighthouse at dawn"
                   [Responds (created_response PyNone)])
  ∧ ∃ later,
      requests_of (generate_tab (Some "secret") raw_decoder "a lighthouse at dawn" true ∅
                     [Responds (created_response PyNone)])
      = creation_request (Some "secret") "a lighthouse at dawn" :: later.
Proof.
  apply (proj2 (proj2 (generate_tab_contacts_provider (Some "secret") raw_decoder
                         "a lighthouse at dawn" true ∅
                         [Responds (created_response PyNone)])));
    [reflexivity|discriminate].
Defined.

Lemma generate_tab_outcome_witness :
  result_of (generate_tab (Some "secret") raw_decoder "a lighthouse at dawn" true
               {[ "generated_prompt" := SStr "a harbour at dusk" ]}
               [Responds {| status_code := 503; text := "busy"; content := [];
                            json_body := None |}])
  = Ret ({[ "generated_prompt" := SStr "a harbour at dusk" ]},
         [Error (PyStr "Error: 503 busy")]).
Proof.
  apply (proj1 (proj2 (generate_tab_outcome (Some "secret") raw_decoder
                         "a lighthouse at dawn"
                         {[ "generated_prompt" := SStr "a harbour at dusk" ]}
                         [Responds {| status_code := 503; text := "busy"; content := [];
                                      json_body := None |}]
                         ltac:(discriminate)))).
  reflexivity.
Defined.

Lemma generate_tab_keeps_session_witness :
  (∀ k, k ≠ "generated_image" → k ≠ "generated_prompt" →
        (<["generated_prompt" := SStr "a lighthouse at dawn"]>
           (<["generated_image" :=
                SImage {| Image.mode := "L"; Image.size := (2, 1);
                          Image.data := [Byte.x89; Byte.x50] |}]>
              {[ "uploaded_name" := SStr "cat.png" ]}) : gmap string ssval) !! k
        = ({[ "uploaded_name" := SStr "cat.png" ]} : gmap string ssval) !! k)
  ∧ ((is_Some (({[ "uploaded_name" := SStr "cat.png" ]} : gmap string ssval)
                 !! "generated_image")
      → is_Some (({[ "uploaded_name" := SStr "cat.png" ]} : gmap string ssval)
                   !! "generated_prompt"))
     → is_Some ((<["generated_prompt" := SStr "a lighthouse at dawn"]>
                   (<["generated_image" :=
                        SImage {| Image.mode := "L"; Image.size := (2, 1);
                                  Image.data := [Byte.x89; Byte.x50] |}]>
                      {[ "uploaded_name" := SStr "cat.png" ]}) : gmap string ssval)
                  !! "generated_image")
     → is_Some ((<["generated_prompt" := SStr "a lighthouse at dawn"]>
                   (<["generated_image" :=
                        SImage {| Image.mode := "L"; Image.size := (2, 1);
                                  Image.data := [Byte.x89; Byte.x50] |}]>
                      {[ "uploaded_name" := SStr "cat.png" ]}) : gmap string ssval)
                  !! "generated_prompt"))
  ∧ ((∀ v, ({[ "uploaded_name" := SStr "cat.png" ]} : gmap string ssval)
             !! "generated_image" = Some v → ∃ im, v = SImage im)
     → ∀ v, (<["generated_prompt" := SStr "a lighthouse at dawn"]>
               (<["generated_image" :=
                    SImage {| Image.mode := "L"; Image.size := (2, 1);
                              Image.data := [Byte.x89; Byte.x50] |}]>
                  {[ "uploaded_name" := SStr "cat.png" ]}) : gmap string ssval)
              !! "generated_image" = Some v
            → ∃ im, v = SImage im).
Proof.
  apply (generate_tab_keeps_session (Some "secret") raw_decoder "a lighthouse at dawn"
           true {[ "uploaded_name" := SStr "cat.png" ]} _
           [Responds (created_response (PyStr "https://x/p/7"));
            Responds (ready_response "https://x/img/7.png");
            Responds (image_response [Byte.x89; Byte.x50])] []).
  vm_compute. reflexivity.
Defined.

(** * Further properties of the editing helpers *)



(** X12. A resize that fails creates nothing.  When the resampling core
    raises on the target of an upscale (or of a resize) that changes the
    size, the helper raises the same exception and the store is exactly
    as before: no object was added or changed. *)
Theorem failed_resize_leaves_store core_resize (st : store) img im (w h : Z) e :
  st !! img = Some im →
  Image.size im = (w, h) →
  (∀ scale,
     (w * scale, h * scale) ≠ (w, h) →
     core_resize im (w * scale, h * scale) = Raise e →
     upscale_image core_resize img scale st = (Raise e, st))
  ∧ (∀ width height,
     (width, height) ≠ (w, h) →
     core_resize im (width, height) = Raise e →
     resize_image core_resize img width height st = (Raise e, st)).
Proof.
  intros Himg Hsize. split.
  - intros scale Hne Hcore.
    unfold upscale_image, Image_resize, pbind, deref. rewrite Himg, Hsize, Himg.
    rewrite bool_decide_eq_false_2 by (rewrite Hsize; congruence).
    by rewrite Hcore.
  - intros width height Hne Hcore.
    unfold resize_image, Image_resize, pbind, deref. rewrite Himg.
    rewrite bool_decide_eq_false_2 by (rewrite Hsize; congruence).
    by rewrite Hcore.
Qed.




Lemma failed_resize_leaves_store_witness :
  upscale_image blank_resize 1 0
    {[ 1%positive := {| Image.mode := "RGB"; Image.size := (2, 5); Image.data := [] |} ]}
  = (Raise ValueError,
     {[ 1%positive := {| Image.mode := "RGB"; Image.size := (2, 5); Image.data := [] |} ]}).
Proof.
  destruct (failed_resize_leaves_store blank_resize
              {[ 1%positive := {| Image.mode := "RGB"; Image.size := (2, 5);
                                  Image.data := [] |} ]}
              1%positive
              {| Image.mode := "RGB"; Image.size := (2, 5); Image.data := [] |}
              2 5 ValueError) as [Hup _].
  - reflexivity.
  - reflexivity.
  - apply (Hup 0).
    + discriminate.
    + reflexivity.
Defined.
